(** * Filler-aware interruption handler: model and properties

    Shallow embedding of [livekit_agents_extensions/filler_interrupt_handler.py].

    - Text is a [string] whose characters are the code points U+0000..U+00FF;
      the character classes below are Python's [str.isspace], [str.lower]
      and the regular expression class [\w] on that range.
    - Confidences are Python floats, that is IEEE 754 binary64: [float] with
      the primitive operations of [PrimFloat].
    - Sets of words are [gset string]; dictionaries are [gmap string _].
    - The handler object is a record; the methods that assign to [self]
      return the new record.  The [asyncio.Lock] only brackets single field
      accesses; each method is modelled as one atomic step.
    - A callback is a function that either returns or raises; what
      [handle_transcript] does is recorded in a [run]: the log records it
      submits, the branch it takes, the callback invocations it makes and the
      exception, if any, that leaves it. *)

From Stdlib Require Import PrimFloat Ascii NArith Bool.
From stdpp Require Import gmap strings list.

Set Warnings "-inexact-float,-register-all".
Local Open Scope string_scope.

(** ** Python strings *)

Module PyStr.

Definition between (lo hi : N) (c : ascii) : bool :=
  let n := N_of_ascii c in ((lo <=? n) && (n <=? hi))%N.

(** [c.isspace()]; also the characters removed by [str.strip()] and
    separating the fields of [str.split()]. *)
Definition isspace (c : ascii) : bool :=
  between 0x09 0x0d c || between 0x1c 0x20 c
  || between 0x85 0x85 c || between 0xa0 0xa0 c.

(** The cased characters changed by [str.lower()]: A-Z, and the Latin-1
    capitals U+00C0..U+00DE without the multiplication sign U+00D7. *)
Definition isupper (c : ascii) : bool :=
  between 0x41 0x5a c || between 0xc0 0xd6 c || between 0xd8 0xde c.

Definition lower_char (c : ascii) : ascii :=
  if isupper c then ascii_of_N (N_of_ascii c + 32) else c.

(** [s.lower()] *)
Fixpoint lower (s : string) : string :=
  match s with
  | EmptyString => EmptyString
  | String c r => String (lower_char c) (lower r)
  end.

(** The class [\w] of the [re] module on [str] patterns: alphanumeric
    characters and the underscore. *)
Definition isword (c : ascii) : bool :=
  between 0x30 0x39 c || between 0x41 0x5a c || between 0x5f 0x5f c
  || between 0x61 0x7a c || between 0xaa 0xaa c || between 0xb2 0xb3 c
  || between 0xb5 0xb5 c || between 0xb9 0xba c || between 0xbc 0xbe c
  || between 0xc0 0xd6 c || between 0xd8 0xf6 c || between 0xf8 0xff c.

Definition is_empty (s : string) : bool :=
  match s with EmptyString => true | String _ _ => false end.

Fixpoint lstrip (s : string) : string :=
  match s with
  | EmptyString => EmptyString
  | String c r => if isspace c then lstrip r else s
  end.

Fixpoint rstrip (s : string) : string :=
  match s with
  | EmptyString => EmptyString
  | String c r =>
      let r' := rstrip r in
      if isspace c && is_empty r' then EmptyString else String c r'
  end.

(** [s.strip()] *)
Definition strip (s : string) : string := rstrip (lstrip s).

(** [s.split()]: the maximal runs of non-whitespace characters, in order.
    [cur] is the field being read, if one has started. *)
Fixpoint split_go (cur : option string) (s : string) : list string :=
  match s with
  | EmptyString =>
      match cur with Some w => [String.rev w] | None => [] end
  | String c r =>
      if isspace c then
        match cur with
        | Some w => String.rev w :: split_go None r
        | None => split_go None r
        end
      else split_go (Some (String c (default EmptyString cur))) r
  end.

Definition split (s : string) : list string := split_go None s.

(** No character of [s] is an upper-case one. *)
Fixpoint no_upper (s : string) : bool :=
  match s with
  | EmptyString => true
  | String c r => negb (isupper c) && no_upper r
  end.

(** [s] has no leading or trailing whitespace. *)
Definition trimmed (s : string) : Prop := strip s = s.

End PyStr.

(** ** Tokenizer *)

(** The characters that [_TOKEN_RE = re.compile(r"[^\w']+", re.UNICODE)]
    does not match: word characters and the apostrophe. *)
Definition token_char (c : ascii) : bool :=
  PyStr.isword c || PyStr.between 0x27 0x27 c.

(** [_TOKEN_RE.sub(" ", s)]: every maximal run of characters that are not
    [token_char] is replaced by one space.  [in_run] tells that the
    previous character belonged to such a run. *)
Fixpoint token_re_sub (in_run : bool) (s : string) : string :=
  match s with
  | EmptyString => EmptyString
  | String c r =>
      if token_char c then String c (token_re_sub false r)
      else if in_run then token_re_sub true r
      else String " " (token_re_sub true r)
  end.

Definition normalize_text (text : string) : string :=
  PyStr.lower (PyStr.strip (token_re_sub false text)).

Definition tokenize (text : string) : list string :=
  List.filter (fun t => negb (PyStr.is_empty t)) (PyStr.split (normalize_text text)).

(** ** Python values, callbacks and log records *)

Inductive pyval :=
| VNone
| VBool (b : bool)
| VStr (s : string)
| VFloat (x : float)
| VList (l : list pyval).

(** A [dict] with string keys, such as the metadata handed to callbacks. *)
Abbreviation pydict := (gmap string pyval).

Inductive exn := Exception (name : string).

(** A callback [cb(text, metadata)] returns ([None]) or raises ([Some e]). *)
Definition callback : Type := string -> pydict -> option exn.

(** One entry of the [words] argument: a dict, of which only the key
    ["confidence"] is ever read, or any object that is not a dict. *)
Inductive word_entry :=
| WordDict (confidence : option float)
| NotADict.

Inductive level := DEBUG | INFO.

(** The messages handed to the logger, by the line that builds them. *)
Inductive message :=
| EmptyTranscript
| Evaluating (text : string) (tokens : list string) (avg_conf : float)
| IgnoringLowConfidence
| ForceStopPresent (text : string)
| FillerOnlyIgnored (text : string)
| NonFillerToken (text : string)
| AgentQuiet (text : string)
| IgnoredWordsUpdated (ws : gset string)
| ForceStopWordsUpdated (ws : gset string)
| SpeakingStart
| SpeakingEnd.

Definition log_record : Type := level * message.

(** ** The handler object *)

Definition DEFAULT_IGNORED_WORDS : gset string :=
  list_to_set ["uh"; "umm"; "hmm"; "haan"; "uhh"; "uhm"; "erm"; "ah"; "mm"; "mmh"; "mhmm"].

Definition DEFAULT_FORCE_STOP_WORDS : gset string :=
  list_to_set ["stop"; "wait"; "hold"; "pause"; "waita"; "no"; "waitone"; "waitone"; "one moment"].

Record FillerInterruptHandler := {
  ignored_words : gset string;
  force_stop_words : gset string;
  min_confidence_to_consider : float;
  ignore_if_confidence_below : float;
  agent_speaking : bool;
  _callbacks : gmap string callback;
}.

(** [set(w.lower() for w in ws)] *)
Definition lower_set (ws : list string) : gset string :=
  list_to_set (PyStr.lower <$> ws).

(** [ws or dflt], as the sequence that is then iterated: [None] and the
    empty sequence are false. *)
Definition or_default (ws : option (list string)) (dflt : gset string) : list string :=
  match ws with
  | Some (w :: l) => w :: l
  | _ => elements dflt
  end.

Definition __init__ (ignored force_stop : option (list string))
    (min_conf ignore_below : float) : FillerInterruptHandler :=
  {| ignored_words := lower_set (or_default ignored DEFAULT_IGNORED_WORDS);
     force_stop_words := lower_set (or_default force_stop DEFAULT_FORCE_STOP_WORDS);
     min_confidence_to_consider := min_conf;
     ignore_if_confidence_below := ignore_below;
     agent_speaking := false;
     _callbacks := ∅ |}.

Definition set_callback (key : string) (cb : callback) (h : FillerInterruptHandler) :=
  {| ignored_words := ignored_words h;
     force_stop_words := force_stop_words h;
     min_confidence_to_consider := min_confidence_to_consider h;
     ignore_if_confidence_below := ignore_if_confidence_below h;
     agent_speaking := agent_speaking h;
     _callbacks := <[key := cb]> (_callbacks h) |}.

Definition on_valid_interruption (h : FillerInterruptHandler) (cb : callback) :=
  set_callback "valid_interruption" cb h.
Definition on_ignored_filler (h : FillerInterruptHandler) (cb : callback) :=
  set_callback "ignored_filler" cb h.
Definition on_speech_registered (h : FillerInterruptHandler) (cb : callback) :=
  set_callback "speech_registered" cb h.

Definition update_ignored_words (h : FillerInterruptHandler) (new_list : list string)
  : FillerInterruptHandler * list log_record :=
  let ws := lower_set new_list in
  ({| ignored_words := ws;
      force_stop_words := force_stop_words h;
      min_confidence_to_consider := min_confidence_to_consider h;
      ignore_if_confidence_below := ignore_if_confidence_below h;
      agent_speaking := agent_speaking h;
      _callbacks := _callbacks h |},
   [(INFO, IgnoredWordsUpdated ws)]).

Definition update_force_stop_words (h : FillerInterruptHandler) (new_list : list string)
  : FillerInterruptHandler * list log_record :=
  let ws := lower_set new_list in
  ({| ignored_words := ignored_words h;
      force_stop_words := ws;
      min_confidence_to_consider := min_confidence_to_consider h;
      ignore_if_confidence_below := ignore_if_confidence_below h;
      agent_speaking := agent_speaking h;
      _callbacks := _callbacks h |},
   [(INFO, ForceStopWordsUpdated ws)]).

Definition set_agent_speaking (b : bool) (h : FillerInterruptHandler) :=
  {| ignored_words := ignored_words h;
     force_stop_words := force_stop_words h;
     min_confidence_to_consider := min_confidence_to_consider h;
     ignore_if_confidence_below := ignore_if_confidence_below h;
     agent_speaking := b;
     _callbacks := _callbacks h |}.

Definition _on_tts_start (h : FillerInterruptHandler) : FillerInterruptHandler * list log_record :=
  (set_agent_speaking true h, [(DEBUG, SpeakingStart)]).

Definition _on_tts_end (h : FillerInterruptHandler) : FillerInterruptHandler * list log_record :=
  (set_agent_speaking false h, [(DEBUG, SpeakingEnd)]).

(** ** Classification *)

(** The three callback slots; every branch of [handle_transcript] that
    follows the empty-text check looks up exactly one of them. *)
Inductive outcome_kind := ValidInterruption | IgnoredFiller | SpeechRegistered.

Definition callback_key (k : outcome_kind) : string :=
  match k with
  | ValidInterruption => "valid_interruption"
  | IgnoredFiller => "ignored_filler"
  | SpeechRegistered => "speech_registered"
  end.

(** The branch taken: the slot, the ["reason"] written by the branch, the
    confidence it used, and the non-ignored tokens where the branch reports
    them. *)
Record outcome := {
  kind : outcome_kind;
  reason : string;
  avg_conf : float;
  non_ignored : option (list string);
}.

Record call := {
  call_key : string;
  call_text : string;
  call_metadata : pydict;
}.

Record run := {
  logs : list log_record;
  result : option outcome;
  calls : list call;
  raised : option exn;
}.

(** [sum(l)]: the running total starts at 0 and the items are added from
    left to right.  (Recent CPython versions carry a rounding compensation
    along; it does not change the total of one or two items.) *)
Definition py_sum (l : list float) : float := fold_left PrimFloat.add l 0%float.

(** [len(l)] as the float it is converted to by [/]. *)
Definition py_len (l : list float) : float :=
  Nat.iter (length l) (fun x => (x + 1)%float) 0%float.

(** [[w.get("confidence", 1.0) for w in words if isinstance(w, dict)]] *)
Definition word_confidences (words : list word_entry) : list float :=
  omap (fun w => match w with
                 | WordDict c => Some (default 1%float c)
                 | NotADict => None
                 end) words.

(** Lines 151-159: the confidence used by the decision. *)
Definition average_confidence (confidence : option float)
    (words : option (list word_entry)) : float :=
  match words with
  | Some (w :: ws) =>
      match word_confidences (w :: ws) with
      | c :: cs => (py_sum (c :: cs) / py_len (c :: cs))%float
      | [] => default 1%float confidence
      end
  | _ => default 1%float confidence
  end.

(** [t in s] *)
Definition mem (t : string) (s : gset string) : bool := bool_decide (t ∈ s).

(** [cb = self._callbacks.get(key); if cb: cb(text, payload); return] *)
Definition deliver (h : FillerInterruptHandler) (lg : list log_record)
    (o : outcome) (text : string) (payload : pydict) : run :=
  match _callbacks h !! callback_key (kind o) with
  | Some cb =>
      {| logs := lg; result := Some o;
         calls := [{| call_key := callback_key (kind o); call_text := text;
                      call_metadata := payload |}];
         raised := cb text payload |}
  | None => {| logs := lg; result := Some o; calls := []; raised := None |}
  end.

(** [handle_transcript].  [text] is a [str], so [text or ""] is [text];
    [metadata or {}] is the empty dict for [None].  A dict display
    [{k1: v1, k2: v2, **metadata}] is [metadata ∪ {[k1 := v1; k2 := v2]}]:
    the union keeps the left value, as the entries unpacked last replace
    those written before them. *)
Definition handle_transcript (h : FillerInterruptHandler) (text : string)
    (confidence : option float) (words : option (list word_entry))
    (metadata : option pydict) : run :=
  let metadata := default ∅ metadata in
  let text := PyStr.strip text in
  if PyStr.is_empty text then
    {| logs := [(DEBUG, EmptyTranscript)]; result := None; calls := []; raised := None |}
  else
    let tokens := tokenize text in
    let avg_conf := average_confidence confidence words in
    if agent_speaking h then
      let lg := [(DEBUG, Evaluating text tokens avg_conf)] in
      if (avg_conf <? ignore_if_confidence_below h)%float then
        deliver h (lg ++ [(INFO, IgnoringLowConfidence)])
          {| kind := IgnoredFiller; reason := "low_confidence";
             avg_conf := avg_conf; non_ignored := None |}
          text
          (metadata ∪ {[ "reason" := VStr "low_confidence"; "avg_conf" := VFloat avg_conf ]})
      else
        let non_ignored_tokens :=
          List.filter (fun t => negb (mem t (ignored_words h))) tokens in
        let has_force_stop :=
          existsb (fun t => mem t (force_stop_words h)) tokens in
        if has_force_stop then
          deliver h (lg ++ [(INFO, ForceStopPresent text)])
            {| kind := ValidInterruption; reason := "force_stop_word";
               avg_conf := avg_conf; non_ignored := None |}
            text
            (metadata ∪ {[ "reason" := VStr "force_stop_word"; "avg_conf" := VFloat avg_conf ]})
        else
          match non_ignored_tokens with
          | [] =>
              deliver h (lg ++ [(INFO, FillerOnlyIgnored text)])
                {| kind := IgnoredFiller; reason := "filler_only";
                   avg_conf := avg_conf; non_ignored := None |}
                text
                (metadata ∪ {[ "reason" := VStr "filler_only"; "avg_conf" := VFloat avg_conf ]})
          | _ :: _ =>
              deliver h (lg ++ [(INFO, NonFillerToken text)])
                {| kind := ValidInterruption; reason := "mixed_tokens";
                   avg_conf := avg_conf; non_ignored := Some non_ignored_tokens |}
                text
                (metadata ∪ {[ "reason" := VStr "mixed_tokens";
                               "non_ignored" := VList (VStr <$> non_ignored_tokens);
                               "avg_conf" := VFloat avg_conf ]})
          end
    else
      deliver h [(DEBUG, AgentQuiet text)]
        {| kind := SpeechRegistered; reason := "agent_quiet";
           avg_conf := avg_conf; non_ignored := None |}
        text
        (metadata ∪ {[ "reason" := VStr "agent_quiet"; "avg_conf" := VFloat avg_conf ]}).

(** ** Sample handlers *)

(** [FillerInterruptHandler()] with the default arguments. *)
Definition default_handler : FillerInterruptHandler :=
  __init__ None None 0.5%float 0.4%float.

Definition speaking_handler : FillerInterruptHandler :=
  (_on_tts_start default_handler).1.

Definition returns : callback := fun _ _ => None.
Definition raises : callback := fun _ _ => Some (Exception "RuntimeError").

(** ** The life of a handler *)

(** The calls that change a handler after its construction. *)
Inductive operation :=
| UpdateIgnoredWords (new_list : list string)
| UpdateForceStopWords (new_list : list string)
| TtsStart
| TtsEnd
| OnValidInterruption (cb : callback)
| OnIgnoredFiller (cb : callback)
| OnSpeechRegistered (cb : callback).

Definition perform (h : FillerInterruptHandler) (op : operation) : FillerInterruptHandler :=
  match op with
  | UpdateIgnoredWords l => (update_ignored_words h l).1
  | UpdateForceStopWords l => (update_force_stop_words h l).1
  | TtsStart => (_on_tts_start h).1
  | TtsEnd => (_on_tts_end h).1
  | OnValidInterruption cb => on_valid_interruption h cb
  | OnIgnoredFiller cb => on_ignored_filler h cb
  | OnSpeechRegistered cb => on_speech_registered h cb
  end.

Definition after (h : FillerInterruptHandler) (ops : list operation) : FillerInterruptHandler :=
  foldl perform h ops.

(** ** Vocabulary of the properties *)

(** The diagnostic fields computed for an outcome. *)
Definition diagnostics (o : outcome) : pydict :=
  match non_ignored o with
  | None => {[ "reason" := VStr (reason o); "avg_conf" := VFloat (avg_conf o) ]}
  | Some l => {[ "reason" := VStr (reason o);
                 "non_ignored" := VList (VStr <$> l);
                 "avg_conf" := VFloat (avg_conf o) ]}
  end.

(** The run took the branch of slot [k] with reason [rs]. *)
Definition has_outcome (r : run) (k : outcome_kind) (rs : string) : Prop :=
  exists o, result r = Some o /\ kind o = k /\ reason o = rs.

Definition word_sets (h : FillerInterruptHandler) : gset string :=
  ignored_words h ∪ force_stop_words h.

Definition words_lowercase (h : FillerInterruptHandler) : Prop :=
  forall w, w ∈ word_sets h -> PyStr.no_upper w = true.

Definition words_lowercase_trimmed (h : FillerInterruptHandler) : Prop :=
  forall w, w ∈ word_sets h -> PyStr.no_upper w = true /\ PyStr.trimmed w.

(** The unweighted mean of a list of confidences. *)
Definition mean (cs : list float) : float := (py_sum cs / py_len cs)%float.

(** Two handlers that differ at most in [min_confidence_to_consider]. *)
Definition same_but_min_confidence (h1 h2 : FillerInterruptHandler) : Prop :=
  ignored_words h1 = ignored_words h2
  /\ force_stop_words h1 = force_stop_words h2
  /\ ignore_if_confidence_below h1 = ignore_if_confidence_below h2
  /\ agent_speaking h1 = agent_speaking h2
  /\ _callbacks h1 = _callbacks h2.

Definition with_min_confidence (x : float) (h : FillerInterruptHandler) :=
  {| ignored_words := ignored_words h;
     force_stop_words := force_stop_words h;
     min_confidence_to_consider := x;
     ignore_if_confidence_below := ignore_if_confidence_below h;
     agent_speaking := agent_speaking h;
     _callbacks := _callbacks h |}.

Definition with_callbacks (cbs : gmap string callback) (h : FillerInterruptHandler) :=
  {| ignored_words := ignored_words h;
     force_stop_words := force_stop_words h;
     min_confidence_to_consider := min_confidence_to_consider h;
     ignore_if_confidence_below := ignore_if_confidence_below h;
     agent_speaking := agent_speaking h;
     _callbacks := cbs |}.

(** ** Readings under test

    Three statements that are compared with the code below. *)

(** The "filler_only" branch is taken exactly for a speaking agent, a
    confidence that is not below the threshold, no force-stop token, and a
    token list that is not empty and lies in the ignored words. *)
Definition filler_only_needs_tokens (h : FillerInterruptHandler) (text : string)
    (confidence : option float) (words : option (list word_entry))
    (metadata : option pydict) : Prop :=
  has_outcome (handle_transcript h text confidence words metadata)
    IgnoredFiller "filler_only"
  <-> agent_speaking h = true
      /\ (average_confidence confidence words <? ignore_if_confidence_below h)%float = false
      /\ (forall t, t ∈ tokenize (PyStr.strip text) -> t ∉ force_stop_words h)
      /\ tokenize (PyStr.strip text) <> []
      /\ (forall t, t ∈ tokenize (PyStr.strip text) -> t ∈ ignored_words h).

(** Every callback receives the caller's metadata overwritten by the
    diagnostic fields. *)
Definition diagnostics_override (h : FillerInterruptHandler) (text : string)
    (confidence : option float) (words : option (list word_entry))
    (metadata : option pydict) : Prop :=
  forall o c,
    result (handle_transcript h text confidence words metadata) = Some o ->
    c ∈ calls (handle_transcript h text confidence words metadata) ->
    call_metadata c = diagnostics o ∪ default ∅ metadata.

(** No exception of a callback leaves [handle_transcript]. *)
Definition handler_failure_contained (h : FillerInterruptHandler) (text : string)
    (confidence : option float) (words : option (list word_entry))
    (metadata : option pydict) : Prop :=
  raised (handle_transcript h text confidence words metadata) = None.

(** With a words list that is not empty the confidence is the mean of
    the confidences of its dict entries; otherwise it is the caller's
    confidence, or 1.0 without one. *)
Definition mean_of_supplied_words (confidence : option float)
    (words : option (list word_entry)) : Prop :=
  match words with
  | Some (w :: ws) =>
      average_confidence confidence words = mean (word_confidences (w :: ws))
  | _ => average_confidence confidence words = default 1%float confidence
  end.

(** ** Further vocabulary *)

(** Every character of [s] satisfies [p]. *)
Fixpoint all_chars (p : ascii -> bool) (s : string) : bool :=
  match s with
  | EmptyString => true
  | String c r => p c && all_chars p r
  end.

(** The characters a token can hold: token characters that are not
    upper-case. *)
Definition clean_char (c : ascii) : bool := token_char c && negb (PyStr.isupper c).



(** A string that has the shape of a token. *)
Definition token_shaped (w : string) : bool :=
  negb (PyStr.is_empty w) && all_chars clean_char w.




(** The last speaking-state event of a sequence of operations, if any:
    [true] for [_on_tts_start], [false] for [_on_tts_end]. *)
Fixpoint last_tts (ops : list operation) : option bool :=
  match ops with
  | [] => None
  | op :: ops' =>
      match last_tts ops' with
      | Some b => Some b
      | None =>
          match op with
          | TtsStart => Some true
          | TtsEnd => Some false
          | _ => None
          end
      end
  end.

(** [isinstance(w, dict)] *)
Definition is_dict (w : word_entry) : bool :=
  match w with WordDict _ => true | NotADict => false end.

(** What [handle_transcript] does with a text that is empty after
    stripping: one debug record, nothing else. *)
Definition empty_run : run :=
  {| logs := [(DEBUG, EmptyTranscript)]; result := None; calls := []; raised := None |}.

(** The kind, the reason and whether non-ignored tokens are reported. *)
Definition outcome_row (o : outcome) : outcome_kind * string * bool :=
  (kind o, reason o, bool_decide (is_Some (non_ignored o))).

(** The five branches of [handle_transcript], each with the speaking
    state under which it is taken. *)
Definition outcome_table : list (outcome_kind * string * bool * bool) :=
  [ (IgnoredFiller, "low_confidence", false, true);
    (ValidInterruption, "force_stop_word", false, true);
    (IgnoredFiller, "filler_only", false, true);
    (ValidInterruption, "mixed_tokens", true, true);
    (SpeechRegistered, "agent_quiet", false, false) ].

(** ** Transcript events *)

(** [_on_transcript_event(result)] reads three keys of the event and hands
    the event itself on as metadata.  The three functions below give the
    arguments it reads when the values have the types its docstring names
    (a str, a float, a list; [None] wherever the key may be missing), and
    [None] for any other value.  No [pyval] is a dict, so the entries of a
    "words" list are all skipped by [isinstance(w, dict)]. *)
Definition event_text (result : pydict) : option string :=
  match result !! "text" with
  | None => Some ""
  | Some (VStr s) => Some s
  | Some VNone => Some ""
  | Some _ => None
  end.

Definition event_confidence (result : pydict) : option (option float) :=
  match result !! "confidence" with
  | None | Some VNone => Some None
  | Some (VFloat x) => Some (Some x)
  | Some _ => None
  end.

Definition event_words (result : pydict) : option (option (list word_entry)) :=
  match result !! "words" with
  | None | Some VNone => Some None
  | Some (VList l) => Some (Some ((fun _ => NotADict) <$> l))
  | Some _ => None
  end.

Definition _on_transcript_event (h : FillerInterruptHandler) (result : pydict)
  : option run :=
  text ← event_text result;
  confidence ← event_confidence result;
  words ← event_words result;
  Some (handle_transcript h text confidence words (Some result)).

(** ** The transcriber example

    [examples/other/transcription/multi-user-transcriber.py] builds one
    handler and registers [handle_interrupt] for valid interruptions. *)

(** What [handle_interrupt] does: start the shutdown, or only print. *)
Inductive stop_action :=
| TriggerStop (clean_text : string)
| IgnoredPhrase (clean_text : string).

Definition handle_interrupt (text : string) (meta : pydict) : stop_action :=
  let clean_text := PyStr.strip (PyStr.lower text) in
  if bool_decide (clean_text ∈ ["stop"; "please stop"; "end"; "terminate"])
  then TriggerStop clean_text
  else IgnoredPhrase clean_text.

(** The handler of [MultiUserTranscriber.__init__], once
    [_register_stop_behavior] has run; the callbacks print and return. *)
Definition transcriber_handler : FillerInterruptHandler :=
  let h := __init__ (Some ["uh"; "umm"; "hmm"; "haan"])
             (Some ["stop"; "wait"; "pause"; "end"; "terminate"])
             0.5%float 0.35%float in
  let h := on_valid_interruption h returns in
  let h := on_ignored_filler h returns in
  let h := on_speech_registered h returns in
  let h := set_agent_speaking true h in
  on_valid_interruption h (fun text meta =>
    match handle_interrupt text meta with _ => None end).

(** * Properties *)

(** ** Worked examples *)

Example tokenize_ex1 : tokenize "uh, STOP!  it's a_b" = ["uh"; "stop"; "it's"; "a_b"].
Proof. vm_compute. reflexivity. Qed.
Example tokenize_ex2 : tokenize "..." = [].
Proof. vm_compute. reflexivity. Qed.
Example strip_ex : PyStr.strip "  Uh  " = "Uh".
Proof. vm_compute. reflexivity. Qed.

Example scenario_force_stop :
  result (handle_transcript speaking_handler "uh stop" (Some 0.9%float) None None)
  = Some {| kind := ValidInterruption; reason := "force_stop_word";
            avg_conf := 0.9%float; non_ignored := None |}.
Proof. vm_compute. reflexivity. Qed.

Example scenario_filler_only :
  result (handle_transcript speaking_handler "uh umm" (Some 0.9%float) None None)
  = Some {| kind := IgnoredFiller; reason := "filler_only";
            avg_conf := 0.9%float; non_ignored := None |}.
Proof. vm_compute. reflexivity. Qed.

Example scenario_mixed :
  result (handle_transcript speaking_handler "book a flight" (Some 0.9%float) None None)
  = Some {| kind := ValidInterruption; reason := "mixed_tokens";
            avg_conf := 0.9%float; non_ignored := Some ["book"; "a"; "flight"] |}.
Proof. vm_compute. reflexivity. Qed.

Example scenario_low_confidence :
  result (handle_transcript speaking_handler "stop" None
            (Some [WordDict (Some 0.1%float)]) None)
  = Some {| kind := IgnoredFiller; reason := "low_confidence";
            avg_conf := 0.1%float; non_ignored := None |}.
Proof. vm_compute. reflexivity. Qed.

Example scenario_quiet :
  result (handle_transcript default_handler "hello there" (Some 0.1%float) None None)
  = Some {| kind := SpeechRegistered; reason := "agent_quiet";
            avg_conf := 0.1%float; non_ignored := None |}.
Proof. vm_compute. reflexivity. Qed.

(** ** Auxiliary facts *)

Lemma is_empty_false s : s <> "" <-> PyStr.is_empty s = false.
Proof. destruct s; simpl; split; congruence. Qed.

Lemma is_empty_true s : s = "" <-> PyStr.is_empty s = true.
Proof. destruct s; simpl; split; congruence. Qed.

Lemma mem_true t s : mem t s = true <-> t ∈ s.
Proof. unfold mem. apply bool_decide_eq_true. Qed.

Lemma mem_false t s : mem t s = false <-> t ∉ s.
Proof. unfold mem. apply bool_decide_eq_false. Qed.

(** [any(t in s for t in l)] *)
Lemma has_force_stop_true (s : gset string) (l : list string) :
  existsb (fun t => mem t s) l = true <-> exists t, t ∈ l /\ t ∈ s.
Proof.
  rewrite existsb_exists. split; intros (t & Hin & Hs); exists t.
  - apply list_elem_of_In in Hin. by apply mem_true in Hs.
  - apply list_elem_of_In in Hin. by apply mem_true in Hs.
Qed.

Lemma has_force_stop_false (s : gset string) (l : list string) :
  existsb (fun t => mem t s) l = false <-> forall t, t ∈ l -> t ∉ s.
Proof.
  split.
  - intros Hf t Hin Hs.
    assert (existsb (fun t => mem t s) l = true) as Ht
      by (apply has_force_stop_true; eauto).
    congruence.
  - intros Hall. destruct (existsb _ l) eqn:E; [|done].
    apply has_force_stop_true in E as (t & Hin & Hs). by destruct (Hall t Hin).
Qed.

(** [[t for t in l if t not in s]] is empty exactly when [l] lies in [s]. *)
Lemma non_ignored_nil (s : gset string) (l : list string) :
  List.filter (fun t => negb (mem t s)) l = [] <-> forall t, t ∈ l -> t ∈ s.
Proof.
  induction l as [|a l IH]; simpl.
  - split; [intros _ t Hin; inversion Hin | done].
  - destruct (mem a s) eqn:E; simpl.
    + rewrite IH. apply mem_true in E. split.
      * intros Hall t Hin. apply elem_of_cons in Hin as [->|Hin]; auto.
      * intros Hall t Hin. apply Hall. by right.
    + apply mem_false in E. split; [done|].
      intros Hall. destruct E. apply Hall. by left.
Qed.

Section Deliver.
Context (h : FillerInterruptHandler) (lg : list log_record) (o : outcome).
Context (text : string) (payload : pydict).

Lemma result_deliver : result (deliver h lg o text payload) = Some o.
Proof. unfold deliver. by destruct (_callbacks h !! _). Qed.

Lemma logs_deliver : logs (deliver h lg o text payload) = lg.
Proof. unfold deliver. by destruct (_callbacks h !! _). Qed.

Lemma calls_deliver :
  calls (deliver h lg o text payload) =
    match _callbacks h !! callback_key (kind o) with
    | Some _ => [{| call_key := callback_key (kind o); call_text := text;
                    call_metadata := payload |}]
    | None => []
    end.
Proof. unfold deliver. by destruct (_callbacks h !! _). Qed.

Lemma raised_deliver :
  raised (deliver h lg o text payload) =
    match _callbacks h !! callback_key (kind o) with
    | Some cb => cb text payload
    | None => None
    end.
Proof. unfold deliver. by destruct (_callbacks h !! _). Qed.

Lemma has_outcome_deliver k rs :
  has_outcome (deliver h lg o text payload) k rs <-> kind o = k /\ reason o = rs.
Proof.
  unfold has_outcome. rewrite result_deliver. split.
  - by intros (o' & [= <-] & Hk).
  - intros Hk. by exists o.
Qed.
End Deliver.

(** Unfold one call of [handle_transcript] on a text that is not empty
    after stripping. *)
Ltac enter_transcript Hne :=
  unfold handle_transcript; cbv zeta;
  apply is_empty_false in Hne; rewrite Hne.

(** ** The decision tree *)

(** C4: while the agent speaks, a transcript that is not empty and whose
    average confidence is strictly below [ignore_if_confidence_below] is
    an IgnoredFiller with reason "low_confidence", whatever its tokens. *)
Theorem low_confidence_gate h text confidence words metadata :
  PyStr.strip text <> "" ->
  agent_speaking h = true ->
  (average_confidence confidence words <? ignore_if_confidence_below h)%float = true ->
  result (handle_transcript h text confidence words metadata)
  = Some {| kind := IgnoredFiller; reason := "low_confidence";
            avg_conf := average_confidence confidence words;
            non_ignored := None |}.
Proof.
  intros Hne Hsp Hlt. enter_transcript Hne.
  rewrite Hsp, Hlt. apply result_deliver.
Qed.

(** The gate wins over the force-stop word "stop" of the default set. *)
Lemma low_confidence_gate_stop :
  "stop" ∈ force_stop_words speaking_handler
  /\ tokenize (PyStr.strip "stop") = ["stop"]
  /\ result (handle_transcript speaking_handler "stop" None
               (Some [WordDict (Some 0.1%float)]) None)
     = Some {| kind := IgnoredFiller; reason := "low_confidence";
               avg_conf := average_confidence None (Some [WordDict (Some 0.1%float)]);
               non_ignored := None |}.
Proof.
  split; [by vm_compute|]. split; [by vm_compute|].
  apply (low_confidence_gate speaking_handler "stop" None
           (Some [WordDict (Some 0.1%float)]) None).
  - vm_compute. discriminate.
  - reflexivity.
  - vm_compute. reflexivity.
Defined.

(** C5: while the agent speaks and the confidence is not below the
    threshold, one token in the force-stop set makes the transcript a
    ValidInterruption with reason "force_stop_word", whatever the other
    tokens are. *)
Theorem force_stop_priority h text confidence words metadata :
  PyStr.strip text <> "" ->
  agent_speaking h = true ->
  (average_confidence confidence words <? ignore_if_confidence_below h)%float = false ->
  (exists t, t ∈ tokenize (PyStr.strip text) /\ t ∈ force_stop_words h) ->
  result (handle_transcript h text confidence words metadata)
  = Some {| kind := ValidInterruption; reason := "force_stop_word";
            avg_conf := average_confidence confidence words;
            non_ignored := None |}.
Proof.
  intros Hne Hsp Hlt Hfs. enter_transcript Hne.
  apply has_force_stop_true in Hfs.
  rewrite Hsp, Hlt, Hfs. apply result_deliver.
Qed.

(** "uh stop": the filler "uh" does not hide the force-stop word. *)
Lemma force_stop_priority_uh_stop :
  "uh" ∈ ignored_words speaking_handler
  /\ result (handle_transcript speaking_handler "uh stop" (Some 0.9%float) None None)
     = Some {| kind := ValidInterruption; reason := "force_stop_word";
               avg_conf := average_confidence (Some 0.9%float) None;
               non_ignored := None |}.
Proof.
  split; [by vm_compute|].
  apply (force_stop_priority speaking_handler "uh stop" (Some 0.9%float) None None).
  - vm_compute. discriminate.
  - reflexivity.
  - vm_compute. reflexivity.
  - exists "stop". split; [|by vm_compute].
    apply list_elem_of_In. vm_compute. tauto.
Defined.

(** C7: while the agent is not speaking, every transcript that is not
    empty is SpeechRegistered with reason "agent_quiet", whatever its
    confidence and tokens. *)
Theorem quiet_registers_speech h text confidence words metadata :
  PyStr.strip text <> "" ->
  agent_speaking h = false ->
  result (handle_transcript h text confidence words metadata)
  = Some {| kind := SpeechRegistered; reason := "agent_quiet";
            avg_conf := average_confidence confidence words;
            non_ignored := None |}.
Proof.
  intros Hne Hsp. enter_transcript Hne.
  rewrite Hsp. apply result_deliver.
Qed.

(** A low-confidence "stop uh" is registered while the agent is quiet. *)
Lemma quiet_registers_speech_stop_uh :
  result (handle_transcript default_handler "stop uh" (Some 0.1%float) None None)
  = Some {| kind := SpeechRegistered; reason := "agent_quiet";
            avg_conf := average_confidence (Some 0.1%float) None;
            non_ignored := None |}.
Proof.
  apply (quiet_registers_speech default_handler "stop uh" (Some 0.1%float) None None).
  - vm_compute. discriminate.
  - reflexivity.
Defined.

(** C3 as stated fails on a transcript of punctuation only: "..." is
    not empty, has no token, and takes the "filler_only" branch. *)
Lemma filler_only_without_tokens :
  ~ filler_only_needs_tokens speaking_handler "..." None None None.
Proof.
  intros [Hif _].
  destruct Hif as (_ & _ & _ & Hne & _).
  - exists {| kind := IgnoredFiller; reason := "filler_only";
              avg_conf := 1%float; non_ignored := None |}.
    split; [|done]. vm_compute. reflexivity.
  - apply Hne. vm_compute. reflexivity.
Qed.

(** C3, amended: for a transcript that is not empty, the "filler_only"
    branch is taken exactly when the agent is speaking, the average
    confidence is not below the threshold, no token is a force-stop word
    and every token is an ignored word; a token list that is empty meets
    the last two conditions. *)
Theorem filler_only_iff h text confidence words metadata :
  PyStr.strip text <> "" ->
  has_outcome (handle_transcript h text confidence words metadata)
    IgnoredFiller "filler_only"
  <-> agent_speaking h = true
      /\ (average_confidence confidence words <? ignore_if_confidence_below h)%float = false
      /\ (forall t, t ∈ tokenize (PyStr.strip text) -> t ∉ force_stop_words h)
      /\ (forall t, t ∈ tokenize (PyStr.strip text) -> t ∈ ignored_words h).
Proof.
  intros Hne. enter_transcript Hne.
  rewrite <- has_force_stop_false, <- non_ignored_nil.
  destruct (agent_speaking h);
    [destruct (_ <? _)%float;
       [|destruct (existsb _ _);
           [|destruct (List.filter _ _) eqn:Hni]]|];
    rewrite has_outcome_deliver; simpl; split;
    try (intros (? & ?); discriminate);
    try (intros (? & ? & ? & ?); discriminate);
    done.
Qed.

Lemma filler_only_iff_uh_umm :
  has_outcome (handle_transcript speaking_handler "uh umm" (Some 0.9%float) None None)
    IgnoredFiller "filler_only"
  <-> agent_speaking speaking_handler = true
      /\ (average_confidence (Some 0.9%float) None
            <? ignore_if_confidence_below speaking_handler)%float = false
      /\ (forall t, t ∈ tokenize (PyStr.strip "uh umm") -> t ∉ force_stop_words speaking_handler)
      /\ (forall t, t ∈ tokenize (PyStr.strip "uh umm") -> t ∈ ignored_words speaking_handler).
Proof.
  apply (filler_only_iff speaking_handler "uh umm" (Some 0.9%float) None None).
  vm_compute. discriminate.
Defined.

(** ** Outcomes and callbacks *)

Lemma handle_transcript_empty h text confidence words metadata :
  PyStr.is_empty (PyStr.strip text) = true ->
  handle_transcript h text confidence words metadata
  = {| logs := [(DEBUG, EmptyTranscript)]; result := None; calls := []; raised := None |}.
Proof. intros He. unfold handle_transcript; cbv zeta. by rewrite He. Qed.

(** Every branch behind the empty-text check ends in one [deliver], whose
    payload is the caller's metadata over the diagnostics of the branch. *)
Lemma handle_transcript_delivers h text confidence words metadata :
  PyStr.is_empty (PyStr.strip text) = false ->
  exists lg o,
    handle_transcript h text confidence words metadata
    = deliver h lg o (PyStr.strip text) (default ∅ metadata ∪ diagnostics o).
Proof.
  intros He. unfold handle_transcript; cbv zeta. rewrite He.
  destruct (agent_speaking h);
    [destruct (_ <? _)%float;
       [|destruct (existsb _ _);
           [|destruct (List.filter _ _) eqn:Hni]]|];
    lazymatch goal with
    | |- exists lg o, deliver _ ?l ?o' _ _ = _ => exists l, o'
    end; reflexivity.
Qed.

Lemma result_some_nonempty h text confidence words metadata o :
  result (handle_transcript h text confidence words metadata) = Some o ->
  PyStr.is_empty (PyStr.strip text) = false.
Proof.
  intros Hr. destruct (PyStr.is_empty (PyStr.strip text)) eqn:He; [|done].
  by rewrite handle_transcript_empty in Hr.
Qed.

(** C6: a text that is empty after stripping produces no outcome and no
    callback invocation; any other text produces one outcome, of one of
    the three kinds, and the only invocation, if there is one, is that of
    the callback registered under the key of that kind. *)
Theorem one_outcome_one_callback h text confidence words metadata :
  let r := handle_transcript h text confidence words metadata in
  if PyStr.is_empty (PyStr.strip text)
  then result r = None /\ calls r = [] /\ raised r = None
  else exists o,
    result r = Some o
    /\ (kind o = ValidInterruption \/ kind o = IgnoredFiller \/ kind o = SpeechRegistered)
    /\ match _callbacks h !! callback_key (kind o) with
       | Some cb =>
           exists payload,
             calls r = [{| call_key := callback_key (kind o);
                           call_text := PyStr.strip text;
                           call_metadata := payload |}]
             /\ raised r = cb (PyStr.strip text) payload
       | None => calls r = [] /\ raised r = None
       end.
Proof.
  cbv zeta. destruct (PyStr.is_empty (PyStr.strip text)) eqn:He.
  - by rewrite handle_transcript_empty.
  - destruct (handle_transcript_delivers h text confidence words metadata He)
      as (lg & o & ->).
    exists o. rewrite result_deliver, calls_deliver, raised_deliver.
    split; [done|]. split; [destruct (kind o); auto|].
    destruct (_callbacks h !! callback_key (kind o)); eauto.
Qed.

(** C10: two handlers that differ at most in [min_confidence_to_consider]
    run every transcript alike: same log records, same outcome with the
    same reason and average confidence, same callback invocations, same
    exception. *)
Theorem min_confidence_never_read h1 h2 text confidence words metadata :
  same_but_min_confidence h1 h2 ->
  handle_transcript h1 text confidence words metadata
  = handle_transcript h2 text confidence words metadata.
Proof.
  destruct h1, h2. unfold same_but_min_confidence; simpl.
  intros (-> & -> & -> & -> & ->). reflexivity.
Qed.

Lemma min_confidence_never_read_09 :
  min_confidence_to_consider speaking_handler
    <> min_confidence_to_consider (with_min_confidence 0.9%float speaking_handler)
  /\ handle_transcript speaking_handler "uh stop" (Some 0.7%float) None None
     = handle_transcript (with_min_confidence 0.9%float speaking_handler)
         "uh stop" (Some 0.7%float) None None.
Proof.
  split.
  - intros H. apply (f_equal (fun x => (x <? 0.7)%float)) in H.
    vm_compute in H. discriminate.
  - apply (min_confidence_never_read speaking_handler
             (with_min_confidence 0.9%float speaking_handler)).
    repeat split; reflexivity.
Defined.

(** ** Metadata handed to callbacks *)

Lemma lookup_over (m d : pydict) (k : string) :
  (m ∪ d) !! k = match m !! k with Some v => Some v | None => d !! k end.
Proof.
  destruct (m !! k) as [v|] eqn:E.
  - by apply lookup_union_Some_l.
  - by apply lookup_union_r.
Qed.

(** C1 as stated fails when the caller's metadata has a key "reason":
    the callback then sees the caller's value, not the diagnostic one. *)
Lemma caller_reason_survives :
  ~ diagnostics_override (on_speech_registered default_handler returns)
      "hello" None None (Some {[ "reason" := VStr "caller" ]}).
Proof.
  intros H.
  specialize (H {| kind := SpeechRegistered; reason := "agent_quiet";
                   avg_conf := 1%float; non_ignored := None |}
                {| call_key := "speech_registered"; call_text := "hello";
                   call_metadata := {[ "reason" := VStr "caller" ]}
                     ∪ {[ "reason" := VStr "agent_quiet"; "avg_conf" := VFloat 1%float ]} |}).
  assert (Some (VStr "caller") = Some (VStr "agent_quiet")) as Habs; [|discriminate].
  simpl in H.
  transitivity
    ((({[ "reason" := VStr "caller" ]} : pydict)
        ∪ {[ "reason" := VStr "agent_quiet"; "avg_conf" := VFloat 1%float ]}) !! "reason").
  - vm_compute. reflexivity.
  - rewrite H.
    + vm_compute. reflexivity.
    + vm_compute. reflexivity.
    + vm_compute. apply list_elem_of_singleton. reflexivity.
Qed.

(** C1, amended: when a callback is registered under the key of the
    outcome, it is invoked once, with the stripped text and with the
    caller's metadata merged with the diagnostic fields ("reason",
    "avg_conf" and, for "mixed_tokens", "non_ignored"); under a key that
    both have, the map holds the caller's value. *)
Theorem caller_metadata_wins h text confidence words metadata o cb :
  result (handle_transcript h text confidence words metadata) = Some o ->
  _callbacks h !! callback_key (kind o) = Some cb ->
  exists payload,
    calls (handle_transcript h text confidence words metadata)
    = [{| call_key := callback_key (kind o); call_text := PyStr.strip text;
          call_metadata := payload |}]
    /\ payload = default ∅ metadata ∪ diagnostics o
    /\ forall k, payload !! k = match default ∅ metadata !! k with
                                | Some v => Some v
                                | None => diagnostics o !! k
                                end.
Proof.
  intros Hr Hcb. pose proof (result_some_nonempty _ _ _ _ _ _ Hr) as He.
  destruct (handle_transcript_delivers h text confidence words metadata He)
    as (lg & o' & Heq).
  rewrite Heq in Hr |- *. rewrite result_deliver in Hr. injection Hr as ->.
  rewrite calls_deliver, Hcb.
  eexists; split; [reflexivity|]. split; [reflexivity|].
  intros k. apply lookup_over.
Qed.

Lemma caller_metadata_wins_hello :
  exists payload,
    calls (handle_transcript (on_speech_registered default_handler returns)
             " hello " None None (Some {[ "reason" := VStr "caller"; "id" := VStr "7" ]}))
    = [{| call_key := "speech_registered"; call_text := PyStr.strip " hello ";
          call_metadata := payload |}]
    /\ payload = default ∅ (Some {[ "reason" := VStr "caller"; "id" := VStr "7" ]})
                 ∪ diagnostics {| kind := SpeechRegistered; reason := "agent_quiet";
                                  avg_conf := 1%float; non_ignored := None |}
    /\ forall k, payload !! k
         = match default ∅ (Some ({[ "reason" := VStr "caller"; "id" := VStr "7" ]} : pydict)) !! k with
           | Some v => Some v
           | None => diagnostics {| kind := SpeechRegistered; reason := "agent_quiet";
                                    avg_conf := 1%float; non_ignored := None |} !! k
           end.
Proof.
  apply (caller_metadata_wins (on_speech_registered default_handler returns)
           " hello " None None (Some {[ "reason" := VStr "caller"; "id" := VStr "7" ]})
           {| kind := SpeechRegistered; reason := "agent_quiet";
              avg_conf := 1%float; non_ignored := None |} returns).
  - vm_compute. reflexivity.
  - vm_compute. reflexivity.
Defined.

(** ** Callbacks that raise *)

(** C2 as stated fails: the exception of a raising callback leaves
    [handle_transcript]. *)
Lemma raising_callback_escapes :
  ~ handler_failure_contained (on_speech_registered default_handler raises)
      "hello" None None None.
Proof.
  unfold handler_failure_contained.
  assert (raised (handle_transcript (on_speech_registered default_handler raises)
                    "hello" None None None)
          = Some (Exception "RuntimeError")) as ->
    by (vm_compute; reflexivity).
  discriminate.
Qed.

(** C2, amended: for a transcript that is not empty, the call ends as the
    callback registered under the key of the outcome ends: it completes
    when that callback returns or none is registered, and it fails with
    the callback's exception when the callback raises.  The log records
    are those of a handler without callbacks: nothing is logged about
    the exception. *)
Theorem handler_failure_propagates h text confidence words metadata o :
  result (handle_transcript h text confidence words metadata) = Some o ->
  raised (handle_transcript h text confidence words metadata)
  = match _callbacks h !! callback_key (kind o) with
    | Some cb => cb (PyStr.strip text) (default ∅ metadata ∪ diagnostics o)
    | None => None
    end
  /\ logs (handle_transcript h text confidence words metadata)
     = logs (handle_transcript (with_callbacks ∅ h) text confidence words metadata).
Proof.
  intros Hr. pose proof (result_some_nonempty _ _ _ _ _ _ Hr) as He. split.
  - destruct (handle_transcript_delivers h text confidence words metadata He)
      as (lg & o' & Heq).
    rewrite Heq in Hr |- *. rewrite result_deliver in Hr. injection Hr as ->.
    apply raised_deliver.
  - unfold handle_transcript; cbv zeta. rewrite He. simpl.
    destruct (agent_speaking h);
      [destruct (_ <? _)%float;
         [|destruct (existsb _ _);
             [|destruct (List.filter _ _)]]|];
      by rewrite !logs_deliver.
Qed.

Lemma handler_failure_propagates_hello :
  raised (handle_transcript (on_speech_registered default_handler raises)
            "hello" None None None)
  = match _callbacks (on_speech_registered default_handler raises)
            !! callback_key SpeechRegistered with
    | Some cb => cb (PyStr.strip "hello")
                   (default ∅ None
                    ∪ diagnostics {| kind := SpeechRegistered; reason := "agent_quiet";
                                     avg_conf := 1%float; non_ignored := None |})
    | None => None
    end
  /\ logs (handle_transcript (on_speech_registered default_handler raises)
             "hello" None None None)
     = logs (handle_transcript
               (with_callbacks ∅ (on_speech_registered default_handler raises))
               "hello" None None None).
Proof.
  apply (handler_failure_propagates (on_speech_registered default_handler raises)
           "hello" None None None
           {| kind := SpeechRegistered; reason := "agent_quiet";
              avg_conf := 1%float; non_ignored := None |}).
  vm_compute. reflexivity.
Defined.

(** ** Average confidence *)

(** C8 as stated fails on a words list without any dict entry: the
    caller's confidence is used, there is nothing to average. *)
Lemma malformed_words_fall_back :
  ~ mean_of_supplied_words (Some 0.3%float) (Some [NotADict]).
Proof.
  unfold mean_of_supplied_words. intros H.
  apply (f_equal (fun x => (x <? 1)%float)) in H.
  vm_compute in H. discriminate.
Qed.

(** Whatever "mean" is taken to be, the words list alone does not fix
    the confidence used. *)
Lemma words_alone_do_not_fix_average :
  ~ exists m : list word_entry -> float,
      forall confidence w ws,
        average_confidence confidence (Some (w :: ws)) = m (w :: ws).
Proof.
  intros (m & Hm).
  pose proof (Hm (Some 0.3%float) NotADict []) as H1.
  pose proof (Hm None NotADict []) as H2.
  rewrite <- H2 in H1.
  apply (f_equal (fun x => (x <? 1)%float)) in H1.
  vm_compute in H1. discriminate.
Qed.

(** C8, amended: entries of [words] that are not dicts are skipped, and a
    dict without "confidence" counts as 1.0.  If at least one dict entry
    remains, the confidence is the unweighted mean over the dict entries;
    otherwise (no list, an empty list, or no dict in it) it is the
    caller's confidence when there is one, and 1.0 when there is none. *)
Theorem average_confidence_resolution :
  (forall confidence words,
     average_confidence confidence words
     = match word_confidences (default [] words) with
       | [] => default 1%float confidence
       | c :: cs => (py_sum (c :: cs) / py_len (c :: cs))%float
       end)
  /\ (forall ws, word_confidences (NotADict :: ws) = word_confidences ws)
  /\ (forall c ws,
        word_confidences (WordDict c :: ws) = default 1%float c :: word_confidences ws).
Proof.
  split; [|split; reflexivity].
  intros confidence [[|w ws]|]; reflexivity.
Qed.

Example average_confidence_ex1 :
  average_confidence (Some 0.9%float)
    (Some [WordDict (Some 0.25%float); NotADict; WordDict (Some 0.75%float)])
  = 0.5%float.
Proof. vm_compute. reflexivity. Qed.

Example average_confidence_ex2 :
  average_confidence (Some 0.9%float) (Some [WordDict None; WordDict (Some 0.5%float)])
  = 0.75%float.
Proof. vm_compute. reflexivity. Qed.

Example average_confidence_ex3 :
  average_confidence (Some 0.25%float) (Some []) = 0.25%float
  /\ average_confidence (Some 0.25%float) None = 0.25%float
  /\ average_confidence None None = 1%float
  /\ average_confidence None (Some [NotADict; NotADict]) = 1%float.
Proof. repeat split; vm_compute; reflexivity. Qed.

(** ** The word sets *)

Lemma lower_char_not_upper c : PyStr.isupper (PyStr.lower_char c) = false.
Proof. destruct c as [[] [] [] [] [] [] [] []]; reflexivity. Qed.

Lemma no_upper_lower s : PyStr.no_upper (PyStr.lower s) = true.
Proof.
  induction s as [|c s IH]; simpl; [done|].
  by rewrite lower_char_not_upper, IH.
Qed.

Lemma elem_of_lower_set (l : list string) (w : string) :
  w ∈ lower_set l <-> exists w0, w0 ∈ l /\ w = PyStr.lower w0.
Proof.
  unfold lower_set. rewrite elem_of_list_to_set, list_elem_of_fmap.
  split; intros (w0 & H1 & H2); eauto.
Qed.

Lemma lower_set_no_upper (l : list string) (w : string) :
  w ∈ lower_set l -> PyStr.no_upper w = true.
Proof. intros (w0 & _ & ->)%elem_of_lower_set. apply no_upper_lower. Qed.

Lemma words_lowercase_sets h :
  words_lowercase h <->
  (forall w, w ∈ ignored_words h -> PyStr.no_upper w = true)
  /\ (forall w, w ∈ force_stop_words h -> PyStr.no_upper w = true).
Proof.
  unfold words_lowercase, word_sets. split.
  - intros H. split; intros w Hw; apply H; set_solver.
  - intros [H1 H2] w [Hw|Hw]%elem_of_union; auto.
Qed.

Lemma words_lowercase_init ignored force_stop min_conf ignore_below :
  words_lowercase (__init__ ignored force_stop min_conf ignore_below).
Proof.
  apply words_lowercase_sets. split; intros w; apply lower_set_no_upper.
Qed.

Lemma words_lowercase_perform h op :
  words_lowercase h -> words_lowercase (perform h op).
Proof.
  rewrite !words_lowercase_sets. intros [Hi Hf].
  destruct op; simpl; split; auto; intros w; apply lower_set_no_upper.
Qed.

(** C9 as stated fails: an entry with surrounding whitespace is stored
    with it. *)
Lemma padded_entry_is_kept :
  ~ words_lowercase_trimmed (after default_handler [UpdateIgnoredWords [" Uh "]]).
Proof.
  intros H. destruct (H " uh ") as [_ Htrim].
  - vm_compute. reflexivity.
  - vm_compute in Htrim. discriminate.
Qed.

Example padded_entry_at_construction :
  ignored_words (__init__ (Some [" Uh "]) None 0.5%float 0.4%float) = {[ " uh " ]}
  /\ PyStr.strip " uh " = "uh".
Proof. split; vm_compute; reflexivity. Qed.

(** C9, amended: after construction and after every later call, both
    word sets hold lower-case entries only; [update_ignored_words] and
    [update_force_stop_words] store exactly the lower-cased forms of the
    entries supplied, whitespace included, and nothing is stripped. *)
Theorem word_sets_lowercase :
  (forall ignored force_stop min_conf ignore_below ops,
     words_lowercase (after (__init__ ignored force_stop min_conf ignore_below) ops))
  /\ (forall h new_list w,
        w ∈ ignored_words (update_ignored_words h new_list).1
        <-> exists w0, w0 ∈ new_list /\ w = PyStr.lower w0)
  /\ (forall h new_list w,
        w ∈ force_stop_words (update_force_stop_words h new_list).1
        <-> exists w0, w0 ∈ new_list /\ w = PyStr.lower w0).
Proof.
  split; [|split; intros h new_list w; apply elem_of_lower_set].
  intros ignored force_stop min_conf ignore_below ops. unfold after.
  generalize (words_lowercase_init ignored force_stop min_conf ignore_below).
  generalize (__init__ ignored force_stop min_conf ignore_below).
  induction ops as [|op ops IH]; intros h Hh; simpl; [done|].
  apply IH. by apply words_lowercase_perform.
Qed.

(** * Further properties of the code *)

(** ** Stripping and lower-casing *)

Ltac each_char c := destruct c as [[] [] [] [] [] [] [] []]; reflexivity.

Ltac each_char_with c H :=
  destruct c as [[] [] [] [] [] [] [] []]; simpl; intros H;
  try reflexivity; discriminate H.

Lemma isspace_lower_char c : PyStr.isspace (PyStr.lower_char c) = PyStr.isspace c.
Proof. each_char c. Qed.

Lemma token_char_lower_char c : token_char (PyStr.lower_char c) = token_char c.
Proof. each_char c. Qed.

Lemma lower_char_idem c : PyStr.lower_char (PyStr.lower_char c) = PyStr.lower_char c.
Proof. each_char c. Qed.

Lemma token_char_not_space c : token_char c = true -> PyStr.isspace c = false.
Proof. each_char_with c H. Qed.


Lemma lstrip_idem s : PyStr.lstrip (PyStr.lstrip s) = PyStr.lstrip s.
Proof.
  induction s as [|c r IH]; simpl; [done|].
  destruct (PyStr.isspace c) eqn:E; [done|]. simpl. by rewrite E.
Qed.

Lemma rstrip_idem s : PyStr.rstrip (PyStr.rstrip s) = PyStr.rstrip s.
Proof.
  induction s as [|c r IH]; simpl; [done|].
  destruct (PyStr.isspace c && PyStr.is_empty (PyStr.rstrip r)) eqn:E; [done|].
  simpl. by rewrite IH, E.
Qed.

Lemma rstrip_lstrip s : PyStr.rstrip (PyStr.lstrip s) = PyStr.lstrip (PyStr.rstrip s).
Proof.
  induction s as [|c r IH]; simpl; [done|].
  destruct (PyStr.isspace c) eqn:E; simpl.
  - rewrite IH. destruct (PyStr.rstrip r) eqn:Er; simpl; [done|].
    by rewrite E.
  - by rewrite E.
Qed.

Lemma strip_idem s : PyStr.strip (PyStr.strip s) = PyStr.strip s.
Proof.
  unfold PyStr.strip.
  rewrite (rstrip_lstrip s), lstrip_idem, (rstrip_lstrip (PyStr.rstrip s)).
  by rewrite rstrip_idem.
Qed.

Lemma lstrip_empty s : PyStr.is_empty (PyStr.lstrip s) = all_chars PyStr.isspace s.
Proof.
  induction s as [|c r IH]; simpl; [done|].
  destruct (PyStr.isspace c); simpl; [apply IH|done].
Qed.

Lemma rstrip_empty s : PyStr.is_empty (PyStr.rstrip s) = all_chars PyStr.isspace s.
Proof.
  induction s as [|c r IH]; simpl; [done|].
  rewrite <- IH. destruct (PyStr.isspace c), (PyStr.is_empty (PyStr.rstrip r)); done.
Qed.

Lemma strip_empty s : PyStr.is_empty (PyStr.strip s) = all_chars PyStr.isspace s.
Proof.
  unfold PyStr.strip. rewrite rstrip_lstrip, lstrip_empty.
  rewrite <- (rstrip_empty (PyStr.rstrip s)), rstrip_idem. apply rstrip_empty.
Qed.

Lemma lower_idem s : PyStr.lower (PyStr.lower s) = PyStr.lower s.
Proof. induction s as [|c r IH]; simpl; [done|]. by rewrite lower_char_idem, IH. Qed.

Lemma is_empty_lower s : PyStr.is_empty (PyStr.lower s) = PyStr.is_empty s.
Proof. by destruct s. Qed.

Lemma lstrip_lower s : PyStr.lstrip (PyStr.lower s) = PyStr.lower (PyStr.lstrip s).
Proof.
  induction s as [|c r IH]; simpl; [done|].
  rewrite isspace_lower_char. by destruct (PyStr.isspace c).
Qed.

Lemma rstrip_lower s : PyStr.rstrip (PyStr.lower s) = PyStr.lower (PyStr.rstrip s).
Proof.
  induction s as [|c r IH]; simpl; [done|].
  rewrite isspace_lower_char, IH, is_empty_lower.
  by destruct (PyStr.isspace c && PyStr.is_empty (PyStr.rstrip r)).
Qed.

Lemma strip_lower s : PyStr.strip (PyStr.lower s) = PyStr.lower (PyStr.strip s).
Proof. unfold PyStr.strip. by rewrite lstrip_lower, rstrip_lower. Qed.

(** ** The substitution of [_TOKEN_RE] *)

Lemma token_re_sub_lower b s :
  token_re_sub b (PyStr.lower s) = PyStr.lower (token_re_sub b s).
Proof.
  revert b. induction s as [|c r IH]; intros b; simpl; [done|].
  rewrite token_char_lower_char.
  destruct (token_char c); simpl; [by rewrite IH|].
  destruct b; simpl; by rewrite IH.
Qed.

Lemma lstrip_sub_any b s :
  PyStr.lstrip (token_re_sub b s) = PyStr.lstrip (token_re_sub false s).
Proof.
  destruct b; [|done]. destruct s as [|c r]; simpl; [done|].
  destruct (token_char c) eqn:E; [done|]. reflexivity.
Qed.

Lemma lstrip_sub_lstrip s :
  PyStr.lstrip (token_re_sub false (PyStr.lstrip s)) = PyStr.lstrip (token_re_sub false s).
Proof.
  induction s as [|c r IH]; simpl; [done|].
  destruct (PyStr.isspace c) eqn:E; [|done].
  destruct (token_char c) eqn:Et; [by rewrite (token_char_not_space c Et) in E|].
  simpl. by rewrite IH, (lstrip_sub_any true).
Qed.

Lemma rstrip_sub_rstrip b s :
  PyStr.rstrip (token_re_sub b (PyStr.rstrip s)) = PyStr.rstrip (token_re_sub b s).
Proof.
  revert b. induction s as [|c r IH]; intros b; simpl; [done|].
  destruct (token_char c) eqn:Et.
  - rewrite (token_char_not_space c Et). simpl. rewrite Et. simpl.
    rewrite (token_char_not_space c Et). simpl. by rewrite IH.
  - destruct (PyStr.isspace c && PyStr.is_empty (PyStr.rstrip r)) eqn:E; simpl.
    + apply andb_true_iff in E as [_ E]. apply is_empty_true in E.
      pose proof (IH true) as IHt. rewrite E in IHt. simpl in IHt.
      destruct b; simpl; [done|]. by rewrite <- IHt.
    + rewrite Et. destruct b; simpl; by rewrite IH.
Qed.

Lemma strip_sub_strip s :
  PyStr.strip (token_re_sub false (PyStr.strip s)) = PyStr.strip (token_re_sub false s).
Proof.
  unfold PyStr.strip.
  rewrite (rstrip_lstrip (token_re_sub false (PyStr.rstrip (PyStr.lstrip s)))).
  rewrite (rstrip_sub_rstrip false (PyStr.lstrip s)).
  rewrite <- (rstrip_lstrip (token_re_sub false (PyStr.lstrip s))).
  by rewrite lstrip_sub_lstrip.
Qed.

Lemma tokenize_lower s : tokenize (PyStr.lower s) = tokenize s.
Proof.
  unfold tokenize, normalize_text.
  by rewrite token_re_sub_lower, strip_lower, lower_idem.
Qed.

Lemma tokenize_strip s : tokenize (PyStr.strip s) = tokenize s.
Proof. unfold tokenize, normalize_text. by rewrite strip_sub_strip. Qed.

(** ** The characters of tokens *)













Lemma clean_char_token c : clean_char c = true -> token_char c = true.
Proof. unfold clean_char. by intros [? _]%andb_true_iff. Qed.

Lemma clean_char_not_upper c : clean_char c = true -> PyStr.isupper c = false.
Proof. unfold clean_char. by intros [_ ?%negb_true_iff]%andb_true_iff. Qed.

Lemma clean_char_not_space c : clean_char c = true -> PyStr.isspace c = false.
Proof. intros H. by apply token_char_not_space, clean_char_token. Qed.

Lemma token_re_sub_clean b w : all_chars clean_char w = true -> token_re_sub b w = w.
Proof.
  revert b. induction w as [|c r IH]; intros b; simpl; [done|].
  intros [Hc Hr]%andb_true_iff. by rewrite (clean_char_token c Hc), IH.
Qed.

Lemma lstrip_clean w : all_chars clean_char w = true -> PyStr.lstrip w = w.
Proof.
  destruct w as [|c r]; simpl; [done|].
  intros [Hc Hr]%andb_true_iff. by rewrite (clean_char_not_space c Hc).
Qed.

Lemma rstrip_clean w : all_chars clean_char w = true -> PyStr.rstrip w = w.
Proof.
  induction w as [|c r IH]; simpl; [done|].
  intros [Hc Hr]%andb_true_iff. by rewrite (clean_char_not_space c Hc), IH.
Qed.

Lemma lower_clean w : all_chars clean_char w = true -> PyStr.lower w = w.
Proof.
  induction w as [|c r IH]; simpl; [done|].
  intros [Hc Hr]%andb_true_iff. unfold PyStr.lower_char.
  by rewrite (clean_char_not_upper c Hc), IH.
Qed.

Lemma rev_app_rev_app s a b :
  String.rev_app (String.rev_app s a) b = String.rev_app a (s ++ b).
Proof.
  revert a. induction s as [|c r IH]; intros a; simpl; [done|]. by rewrite IH.
Qed.

Lemma split_go_clean acc w :
  all_chars clean_char w = true ->
  PyStr.split_go (Some acc) w = [String.rev_app acc w].
Proof.
  revert acc. induction w as [|c r IH]; intros acc; simpl.
  - intros _. unfold String.rev. f_equal.
  - intros [Hc Hr]%andb_true_iff. rewrite (clean_char_not_space c Hc).
    by rewrite IH.
Qed.

(** X2: a string that has the shape of a token (not empty, word
    characters and apostrophes only, no capital) is its own single
    token. *)
Theorem tokenize_token w : token_shaped w = true -> tokenize w = [w].
Proof.
  unfold token_shaped. intros [Hne Hw]%andb_true_iff.
  unfold tokenize, normalize_text, PyStr.strip.
  rewrite token_re_sub_clean, lstrip_clean, rstrip_clean, lower_clean by done.
  destruct w as [|c r]; [done|]. unfold PyStr.split. simpl.
  simpl in Hw. apply andb_true_iff in Hw as [Hc Hr].
  rewrite (clean_char_not_space c Hc). rewrite split_go_clean by done. simpl.
  reflexivity.
Qed.

Lemma tokenize_token_its :
  token_shaped "it's" = true /\ tokenize "it's" = ["it's"].
Proof.
  split; [vm_compute; reflexivity|].
  apply (tokenize_token "it's"). vm_compute. reflexivity.
Defined.


(** ** Blank and padded transcripts *)

(** X4: a transcript is dropped, with one debug record and nothing else,
    exactly when each of its characters is whitespace; this is the only
    way to get no outcome. *)
Theorem dropped_iff_blank h text confidence words metadata :
  (all_chars PyStr.isspace text = true ->
   handle_transcript h text confidence words metadata = empty_run)
  /\ (result (handle_transcript h text confidence words metadata) = None
      <-> all_chars PyStr.isspace text = true).
Proof.
  rewrite <- strip_empty. split.
  - apply handle_transcript_empty.
  - split.
    + intros Hr. destruct (PyStr.is_empty (PyStr.strip text)) eqn:He; [done|].
      destruct (handle_transcript_delivers h text confidence words metadata He)
        as (lg & o & Heq).
      rewrite Heq, result_deliver in Hr. discriminate.
    + intros He. by rewrite handle_transcript_empty.
Qed.

(** X5: whitespace around the transcript changes nothing: the run on the
    stripped text is the run on the text. *)
Theorem surrounding_whitespace_ignored h text confidence words metadata :
  handle_transcript h (PyStr.strip text) confidence words metadata
  = handle_transcript h text confidence words metadata.
Proof. unfold handle_transcript. by rewrite strip_idem. Qed.

(** X6: the text handed to a callback is the stripped transcript: it has
    no whitespace at either end and is not empty. *)
Theorem callbacks_get_trimmed_text h text confidence words metadata :
  Forall (fun c => call_text c = PyStr.strip text
                   /\ PyStr.trimmed (call_text c) /\ call_text c <> "")
    (calls (handle_transcript h text confidence words metadata)).
Proof.
  destruct (PyStr.is_empty (PyStr.strip text)) eqn:He.
  - rewrite handle_transcript_empty by done. constructor.
  - destruct (handle_transcript_delivers h text confidence words metadata He)
      as (lg & o & ->).
    rewrite calls_deliver. destruct (_callbacks h !! _); constructor; [|constructor].
    simpl. split; [done|]. split; [apply strip_idem|by apply is_empty_false].
Qed.

Ltac split_branches h :=
  destruct (agent_speaking h);
    [destruct (_ <? _)%float;
       [|destruct (existsb _ _);
           [|destruct (List.filter _ _)]]|].


(** ** More of the decision tree *)

(** X8: while the agent speaks and the confidence is not below the
    threshold, a transcript without force-stop token and with a token
    outside the ignored words is a ValidInterruption with reason
    "mixed_tokens"; it reports the tokens outside the ignored words, in
    their order, and that list is not empty. *)
Theorem mixed_tokens_interrupt h text confidence words metadata :
  PyStr.strip text <> "" ->
  agent_speaking h = true ->
  (average_confidence confidence words <? ignore_if_confidence_below h)%float = false ->
  (forall t, t ∈ tokenize text -> t ∉ force_stop_words h) ->
  (exists t, t ∈ tokenize text /\ t ∉ ignored_words h) ->
  result (handle_transcript h text confidence words metadata)
  = Some {| kind := ValidInterruption; reason := "mixed_tokens";
            avg_conf := average_confidence confidence words;
            non_ignored := Some (List.filter (fun t => negb (mem t (ignored_words h)))
                                   (tokenize text)) |}
  /\ List.filter (fun t => negb (mem t (ignored_words h))) (tokenize text) <> [].
Proof.
  intros Hne Hsp Hlt Hfs (t & Ht & Hni).
  assert (List.filter (fun t => negb (mem t (ignored_words h))) (tokenize text) <> [])
    as Hnil.
  { intros Hnil. apply Hni. by apply (non_ignored_nil (ignored_words h) (tokenize text)). }
  split; [|done].
  enter_transcript Hne. rewrite tokenize_strip.
  apply has_force_stop_false in Hfs. rewrite Hsp, Hlt, Hfs.
  destruct (List.filter _ _) eqn:E; [done|]. apply result_deliver.
Qed.

Lemma mixed_tokens_interrupt_umm_book :
  result (handle_transcript speaking_handler "Umm, book a flight!" (Some 0.9%float) None None)
  = Some {| kind := ValidInterruption; reason := "mixed_tokens";
            avg_conf := average_confidence (Some 0.9%float) None;
            non_ignored :=
              Some (List.filter (fun t => negb (mem t (ignored_words speaking_handler)))
                      (tokenize "Umm, book a flight!")) |}
  /\ List.filter (fun t => negb (mem t (ignored_words speaking_handler)))
       (tokenize "Umm, book a flight!") <> [].
Proof.
  apply (mixed_tokens_interrupt speaking_handler "Umm, book a flight!"
           (Some 0.9%float) None None).
  - vm_compute. discriminate.
  - reflexivity.
  - vm_compute. reflexivity.
  - apply has_force_stop_false. vm_compute. reflexivity.
  - exists "book". split; [apply list_elem_of_In; vm_compute; tauto|].
    apply mem_false. vm_compute. reflexivity.
Defined.

Example mixed_tokens_umm_book_list :
  List.filter (fun t => negb (mem t (ignored_words speaking_handler)))
    (tokenize "Umm, book a flight!") = ["book"; "a"; "flight"].
Proof. vm_compute. reflexivity. Qed.

(** X9: every outcome is one of five rows (kind, reason, whether
    non-ignored tokens are reported), each tied to one speaking state:
    four while the agent speaks and "agent_quiet" while it does not; the
    confidence it carries is the resolved average. *)
Theorem outcome_in_table h text confidence words metadata :
  match result (handle_transcript h text confidence words metadata) with
  | None => True
  | Some o =>
      (outcome_row o, agent_speaking h) ∈ outcome_table
      /\ avg_conf o = average_confidence confidence words
  end.
Proof.
  unfold handle_transcript; cbv zeta.
  destruct (PyStr.is_empty (PyStr.strip text)); [done|].
  unfold outcome_table.
  split_branches h; rewrite result_deliver; (split; [|done]);
    unfold outcome_row; simpl; set_solver.
Qed.

(** X10: while the agent speaks only the "valid_interruption" and
    "ignored_filler" callbacks can be invoked, and while it does not, only
    "speech_registered": speech is never registered during agent speech. *)
Theorem calls_follow_speaking_state h text confidence words metadata :
  Forall (fun c => if agent_speaking h
                   then call_key c = "valid_interruption" \/ call_key c = "ignored_filler"
                   else call_key c = "speech_registered")
    (calls (handle_transcript h text confidence words metadata)).
Proof.
  unfold handle_transcript; cbv zeta.
  destruct (PyStr.is_empty (PyStr.strip text)); [constructor|].
  split_branches h;
    rewrite calls_deliver; destruct (_callbacks h !! _);
    try (by constructor); apply Forall_singleton; simpl; auto.
Qed.

(** X11: neither the registered callbacks nor the metadata influence the
    outcome or the log records. *)
Theorem outcome_ignores_callbacks_and_metadata h cbs text confidence words md1 md2 :
  result (handle_transcript (with_callbacks cbs h) text confidence words md1)
  = result (handle_transcript h text confidence words md2)
  /\ logs (handle_transcript (with_callbacks cbs h) text confidence words md1)
     = logs (handle_transcript h text confidence words md2).
Proof.
  unfold handle_transcript; cbv zeta. simpl.
  destruct (PyStr.is_empty (PyStr.strip text)); [done|].
  split_branches h; by rewrite !result_deliver, !logs_deliver.
Qed.

(** ** Registration *)

Lemma callback_key_inj k1 k2 : callback_key k1 = callback_key k2 -> k1 = k2.
Proof. by destruct k1, k2. Qed.

Lemma deliver_set_callback_ne h k cb lg o text payload :
  kind o <> k ->
  deliver (set_callback (callback_key k) cb h) lg o text payload
  = deliver h lg o text payload.
Proof.
  intros Hk. unfold deliver, set_callback; simpl.
  rewrite lookup_insert_ne; [done|]. intros Heq. by apply callback_key_inj in Heq.
Qed.

(** X12: registering a callback for one kind changes nothing in the run
    of a transcript whose outcome is of another kind. *)
Theorem other_kind_callback_untouched h k cb text confidence words metadata o :
  result (handle_transcript h text confidence words metadata) = Some o ->
  kind o <> k ->
  handle_transcript (set_callback (callback_key k) cb h) text confidence words metadata
  = handle_transcript h text confidence words metadata.
Proof.
  unfold handle_transcript; cbv zeta. simpl.
  destruct (PyStr.is_empty (PyStr.strip text)); [done|].
  split_branches h; rewrite result_deliver; intros [= <-] Hk;
    by apply deliver_set_callback_ne.
Qed.

Lemma other_kind_callback_untouched_stop :
  on_ignored_filler speaking_handler raises
    = set_callback (callback_key IgnoredFiller) raises speaking_handler
  /\ handle_transcript (set_callback (callback_key IgnoredFiller) raises speaking_handler)
       "stop" (Some 0.9%float) None None
     = handle_transcript speaking_handler "stop" (Some 0.9%float) None None.
Proof.
  split; [reflexivity|].
  apply (other_kind_callback_untouched speaking_handler IgnoredFiller raises
           "stop" (Some 0.9%float) None None
           {| kind := ValidInterruption; reason := "force_stop_word";
              avg_conf := 0.9%float; non_ignored := None |}).
  - vm_compute. reflexivity.
  - discriminate.
Defined.

(** X13: once a callback is registered for a kind, every transcript with
    an outcome of that kind invokes it, once, with the stripped text and
    the merged metadata, and ends as the callback ends. *)
Theorem registered_callback_is_invoked h k cb text confidence words metadata o :
  result (handle_transcript h text confidence words metadata) = Some o ->
  kind o = k ->
  calls (handle_transcript (set_callback (callback_key k) cb h)
           text confidence words metadata)
  = [{| call_key := callback_key k; call_text := PyStr.strip text;
        call_metadata := default ∅ metadata ∪ diagnostics o |}]
  /\ raised (handle_transcript (set_callback (callback_key k) cb h)
               text confidence words metadata)
     = cb (PyStr.strip text) (default ∅ metadata ∪ diagnostics o).
Proof.
  unfold handle_transcript; cbv zeta. simpl.
  destruct (PyStr.is_empty (PyStr.strip text)); [done|].
  split_branches h; rewrite result_deliver; intros [= <-] <-;
    rewrite calls_deliver, raised_deliver; simpl;
    rewrite !lookup_insert_eq; split; reflexivity.
Qed.

Lemma registered_callback_is_invoked_stop :
  on_valid_interruption speaking_handler raises
    = set_callback (callback_key ValidInterruption) raises speaking_handler
  /\ (calls (handle_transcript
               (set_callback (callback_key ValidInterruption) raises speaking_handler)
               " stop " (Some 0.9%float) None None)
      = [{| call_key := callback_key ValidInterruption; call_text := PyStr.strip " stop ";
            call_metadata :=
              default ∅ None
              ∪ diagnostics {| kind := ValidInterruption; reason := "force_stop_word";
                               avg_conf := 0.9%float; non_ignored := None |} |}]
      /\ raised (handle_transcript
                   (set_callback (callback_key ValidInterruption) raises speaking_handler)
                   " stop " (Some 0.9%float) None None)
         = raises (PyStr.strip " stop ")
             (default ∅ None
              ∪ diagnostics {| kind := ValidInterruption; reason := "force_stop_word";
                               avg_conf := 0.9%float; non_ignored := None |})).
Proof.
  split; [reflexivity|].
  apply (registered_callback_is_invoked speaking_handler ValidInterruption raises
           " stop " (Some 0.9%float) None None
           {| kind := ValidInterruption; reason := "force_stop_word";
              avg_conf := 0.9%float; non_ignored := None |}).
  - vm_compute. reflexivity.
  - reflexivity.
Defined.

(** X14: a second registration for a kind replaces the first: the handler
    is the one it would be had the first never been made. *)
Theorem last_registration_wins h cb1 cb2 :
  on_valid_interruption (on_valid_interruption h cb1) cb2 = on_valid_interruption h cb2
  /\ on_ignored_filler (on_ignored_filler h cb1) cb2 = on_ignored_filler h cb2
  /\ on_speech_registered (on_speech_registered h cb1) cb2 = on_speech_registered h cb2.
Proof.
  unfold on_valid_interruption, on_ignored_filler, on_speech_registered, set_callback;
    simpl. by rewrite !insert_insert_eq.
Qed.

(** ** The handler over time *)

(** X15: no operation after construction changes a threshold. *)
Theorem thresholds_fixed h ops :
  ignore_if_confidence_below (after h ops) = ignore_if_confidence_below h
  /\ min_confidence_to_consider (after h ops) = min_confidence_to_consider h.
Proof.
  unfold after. revert h. induction ops as [|op ops IH]; intros h; simpl; [done|].
  destruct (IH (perform h op)) as [-> ->]. by destruct op.
Qed.

(** X16: the speaking flag is that of the last [_on_tts_start] or
    [_on_tts_end]; repeated starts or ends, updates of the word sets and
    registrations leave it alone, and a new handler is not speaking. *)
Theorem speaking_is_last_tts_event h ops :
  agent_speaking (after h ops) = default (agent_speaking h) (last_tts ops)
  /\ forall ignored force_stop a b,
       agent_speaking (after (__init__ ignored force_stop a b) ops)
       = default false (last_tts ops).
Proof.
  assert (forall h, agent_speaking (after h ops)
                    = default (agent_speaking h) (last_tts ops)) as H.
  { unfold after. induction ops as [|op ops IH]; intros h'; simpl; [done|].
    rewrite IH. destruct (last_tts ops); [done|]. by destruct op. }
  split; [apply H|]. intros ignored force_stop a b. by rewrite H.
Qed.

(** X17: an empty list given to the constructor selects the default set,
    which is stored as it is; an empty list given to an update empties
    the set. *)
Theorem empty_list_at_construction :
  (forall force_stop a b, __init__ (Some []) force_stop a b = __init__ None force_stop a b)
  /\ (forall ignored a b, __init__ ignored (Some []) a b = __init__ ignored None a b)
  /\ (forall a b, ignored_words (__init__ None None a b) = DEFAULT_IGNORED_WORDS
                  /\ force_stop_words (__init__ None None a b) = DEFAULT_FORCE_STOP_WORDS)
  /\ (forall h, ignored_words (update_ignored_words h []).1 = ∅
                /\ force_stop_words (update_force_stop_words h []).1 = ∅).
Proof.
  split; [done|]. split; [done|]. split.
  - intros a b. split; vm_compute; reflexivity.
  - done.
Qed.

(** ** Entries that no token can match *)








Example one_moment_is_no_force_stop :
  result (handle_transcript speaking_handler "one moment" (Some 0.9%float) None None)
  = Some {| kind := ValidInterruption; reason := "mixed_tokens";
            avg_conf := 0.9%float; non_ignored := Some ["one"; "moment"] |}.
Proof. vm_compute. reflexivity. Qed.

(** ** More on the average confidence *)

Lemma average_confidence_cases confidence words :
  average_confidence confidence words
  = match word_confidences (default [] words) with
    | [] => default 1%float confidence
    | c :: cs => mean (c :: cs)
    end.
Proof. by destruct words as [[|w ws]|]. Qed.

Lemma word_confidences_filter ws :
  word_confidences (List.filter is_dict ws) = word_confidences ws.
Proof.
  induction ws as [|[c|] ws IH]; simpl; [done| |done].
  unfold word_confidences in *. simpl. by rewrite IH.
Qed.

(** X19: entries of [words] that are not dicts never count: with them or
    with the dict entries alone, the confidence is the same, whatever the
    caller's confidence is. *)
Theorem non_dict_entries_are_skipped confidence ws :
  average_confidence confidence (Some (List.filter is_dict ws))
  = average_confidence confidence (Some ws).
Proof.
  rewrite !average_confidence_cases. simpl. by rewrite word_confidences_filter.
Qed.

(** X20: as soon as [words] holds one dict, the caller's confidence is
    not read. *)
Theorem word_confidences_have_priority c1 c2 ws :
  existsb is_dict ws = true ->
  average_confidence c1 (Some ws) = average_confidence c2 (Some ws).
Proof.
  intros Hd. rewrite !average_confidence_cases. simpl.
  destruct (word_confidences ws) eqn:E; [|done].
  exfalso. induction ws as [|[c|] ws IH]; simpl in *; try discriminate.
  by apply IH.
Qed.

Lemma word_confidences_have_priority_02 :
  average_confidence (Some 0.9%float) (Some [NotADict; WordDict (Some 0.2%float)])
  = average_confidence None (Some [NotADict; WordDict (Some 0.2%float)]).
Proof.
  apply (word_confidences_have_priority (Some 0.9%float) None
           [NotADict; WordDict (Some 0.2%float)]).
  reflexivity.
Defined.

(** ** Transcript events *)

(** X21: an event without "text", or whose "text" is [None], is dropped
    like an empty transcript: one debug record, no outcome, no callback. *)
Theorem event_without_text_is_dropped h result :
  result !! "text" = None \/ result !! "text" = Some VNone ->
  is_Some (_on_transcript_event h result) ->
  _on_transcript_event h result = Some empty_run.
Proof.
  unfold _on_transcript_event, event_text.
  intros [-> | ->]; simpl;
    destruct (event_confidence result) as [c|]; simpl;
    try (by intros [? ?]);
    destruct (event_words result) as [w|]; simpl;
    try (by intros [? ?]);
    done.
Qed.

Lemma event_without_text_is_dropped_conf :
  _on_transcript_event (on_speech_registered default_handler raises)
    {[ "confidence" := VFloat 0.9%float ]}
  = Some empty_run.
Proof.
  apply (event_without_text_is_dropped
           (on_speech_registered default_handler raises)
           {[ "confidence" := VFloat 0.9%float ]}).
  - left. vm_compute. reflexivity.
  - vm_compute. eexists. reflexivity.
Defined.

(** X22: the event is the metadata: each of its entries, the unstripped
    "text" and a "reason" of its own included, reaches the callback as
    it is. *)
Theorem event_is_the_metadata h result r :
  _on_transcript_event h result = Some r ->
  Forall (fun c => result ⊆ call_metadata c) (calls r).
Proof.
  unfold _on_transcript_event.
  destruct (event_text result) as [t|]; simpl; [|discriminate].
  destruct (event_confidence result) as [c|]; simpl; [|discriminate].
  destruct (event_words result) as [w|]; simpl; [|discriminate].
  intros [= <-].
  destruct (PyStr.is_empty (PyStr.strip t)) eqn:He.
  - rewrite handle_transcript_empty by done. constructor.
  - destruct (handle_transcript_delivers h t c w (Some result) He) as (lg & o & ->).
    rewrite calls_deliver. destruct (_callbacks h !! _); [|constructor].
    apply Forall_singleton. simpl. apply map_union_subseteq_l.
Qed.

Lemma event_is_the_metadata_stop :
  Forall (fun c => ({[ "text" := VStr " stop "; "reason" := VStr "mine" ]} : pydict)
                     ⊆ call_metadata c)
    (calls (handle_transcript (on_valid_interruption speaking_handler returns)
              " stop " None None
              (Some {[ "text" := VStr " stop "; "reason" := VStr "mine" ]}))).
Proof.
  apply (event_is_the_metadata (on_valid_interruption speaking_handler returns)
           {[ "text" := VStr " stop "; "reason" := VStr "mine" ]}).
  vm_compute. reflexivity.
Defined.

Example event_stop_call :
  call_text <$> calls (handle_transcript (on_valid_interruption speaking_handler returns)
                         " stop " None None
                         (Some {[ "text" := VStr " stop "; "reason" := VStr "mine" ]}))
  = ["stop"].
Proof. vm_compute. reflexivity. Qed.

(** ** The transcriber example *)

(** X23: with "stop", "end" and "terminate" among the force-stop words,
    as in the example, [handle_interrupt] starts the shutdown only on
    calls that come from the "force_stop_word" branch, never on a
    "mixed_tokens" interruption. *)
Theorem stop_handler_fires_on_force_stop_only h text confidence words metadata :
  Forall (fun w => w ∈ force_stop_words h) ["stop"; "end"; "terminate"] ->
  Forall (fun c =>
            call_key c = "valid_interruption" ->
            forall p, handle_interrupt (call_text c) (call_metadata c) = TriggerStop p ->
            has_outcome (handle_transcript h text confidence words metadata)
              ValidInterruption "force_stop_word")
    (calls (handle_transcript h text confidence words metadata)).
Proof.
  intros Hfs.
  destruct (PyStr.is_empty (PyStr.strip text)) eqn:He.
  { rewrite handle_transcript_empty by done. constructor. }
  unfold handle_transcript; cbv zeta. rewrite He.
  destruct (agent_speaking h);
    [destruct (_ <? _)%float;
       [|destruct (existsb _ _) eqn:Ef;
           [|destruct (List.filter _ _)]]|];
    rewrite calls_deliver;
    (destruct (_callbacks h !! _); [apply Forall_singleton|by constructor]);
    simpl; intros Hk p Hp; apply has_outcome_deliver; simpl;
    try discriminate Hk; try done.
  exfalso. revert Hp. unfold handle_interrupt; cbv zeta.
  rewrite strip_lower, strip_idem.
  case_bool_decide as Hin; [|discriminate]. intros _.
  assert (existsb (fun t => mem t (force_stop_words h)) (tokenize (PyStr.strip text))
          = true) as Habs; [|congruence].
  apply has_force_stop_true. rewrite <- tokenize_lower.
  rewrite !Forall_cons in Hfs. destruct Hfs as (Hstop & Hend & Hterm & _).
  repeat (apply elem_of_cons in Hin as [->|Hin];
          [first [ by exists "stop"; split; [apply list_elem_of_In; vm_compute; tauto|]
                 | by exists "end"; split; [apply list_elem_of_In; vm_compute; tauto|]
                 | by exists "terminate"; split; [apply list_elem_of_In; vm_compute; tauto|] ]|]).
  inversion Hin.
Qed.

Lemma stop_handler_fires_on_force_stop_only_please :
  Forall (fun c =>
            call_key c = "valid_interruption" ->
            forall p, handle_interrupt (call_text c) (call_metadata c) = TriggerStop p ->
            has_outcome (handle_transcript transcriber_handler " Please STOP "
                           (Some 0.9%float) None None)
              ValidInterruption "force_stop_word")
    (calls (handle_transcript transcriber_handler " Please STOP "
              (Some 0.9%float) None None)).
Proof.
  apply (stop_handler_fires_on_force_stop_only transcriber_handler " Please STOP "
           (Some 0.9%float) None None).
  repeat constructor; by vm_compute.
Defined.

Example please_stop_triggers :
  (fun c => handle_interrupt (call_text c) (call_metadata c))
    <$> calls (handle_transcript transcriber_handler " Please STOP "
                 (Some 0.9%float) None None)
  = [TriggerStop "please stop"].
Proof. vm_compute. reflexivity. Qed.

Example stop_with_mark_is_not_a_trigger :
  reason <$> result (handle_transcript transcriber_handler "Stop!" (Some 0.9%float) None None)
    = Some "force_stop_word"
  /\ (fun c => handle_interrupt (call_text c) (call_metadata c))
       <$> calls (handle_transcript transcriber_handler "Stop!" (Some 0.9%float) None None)
     = [IgnoredPhrase "stop!"].
Proof. split; vm_compute; reflexivity. Qed.
